(** * TweetStream frontend server ([frontend/server.py])

    A shallow embedding of the request handler [TweetStreamHandler]
    ([do_GET], [serve_file]) and of the start-up block of [server.py],
    followed by the properties of the static asset server. *)

From Stdlib Require Import List Bool NArith ZArith Lia.
From Stdlib Require Import Strings.String Strings.Ascii Strings.Byte.
Import ListNotations.

(** ** Python values *)

(** A Python [str] is a sequence of Unicode code points. *)
Definition pystr := list N.

(** A string literal of the source. *)
Definition lit (s : string) : pystr :=
  map N_of_ascii (list_ascii_of_string s).

Coercion lit : string >-> pystr.

(** A Python [bytes] value, and a bytes literal [b'...'] of the source. *)
Definition bytes := list byte.

Definition bytes_lit (s : string) : bytes := list_byte_of_string s.

Module Str.

(** [a == b] *)
Fixpoint eqb (a b : pystr) : bool :=
  match a, b with
  | [], [] => true
  | x :: a', y :: b' => N.eqb x y && eqb a' b'
  | _, _ => false
  end.

(** [a + b] *)
Definition add (a b : pystr) : pystr := (a ++ b)%list.

(** [s[i:]] for a non-negative [i]: an index past the end gives the
    empty string. *)
Definition slice_from (i : nat) (s : pystr) : pystr := skipn i s.

(** [s.endswith(suffix)]: the last [len(suffix)] characters of [s] are
    compared with [suffix]; a suffix longer than [s] never matches. *)
Definition endswith (s suffix : pystr) : bool :=
  (List.length suffix <=? List.length s)%nat &&
  eqb (skipn (List.length s - List.length suffix) s) suffix.

(** [s.startswith(prefix)] *)
Fixpoint startswith (s prefix : pystr) : bool :=
  match prefix, s with
  | [], _ => true
  | y :: prefix', x :: s' => N.eqb x y && startswith s' prefix'
  | _ :: _, [] => false
  end.

(** [s.lower()] on the ASCII letters, for header field names. *)
Definition lower_char (c : N) : N :=
  if (65 <=? c)%N && (c <=? 90)%N then (c + 32)%N else c.

Definition lower (s : pystr) : pystr := map lower_char s.

(** One code point in UTF-8, by the bit layout of the encoding. *)
Definition byte_of_N (n : N) : byte :=
  match Byte.of_N n with Some x => x | None => x00 end.

Definition continuation (c : N) (shift : N) : byte :=
  byte_of_N (N.lor 0x80 (N.land (N.shiftr c shift) 0x3f)).

Definition encode_char (c : N) : bytes :=
  if (c <? 0x80)%N then
    [byte_of_N c]
  else if (c <? 0x800)%N then
    [byte_of_N (N.lor 0xc0 (N.shiftr c 6)); continuation c 0]
  else if (c <? 0x10000)%N then
    [byte_of_N (N.lor 0xe0 (N.shiftr c 12)); continuation c 6;
     continuation c 0]
  else
    [byte_of_N (N.lor 0xf0 (N.shiftr c 18)); continuation c 12;
     continuation c 6; continuation c 0].

(** [s.encode('utf-8')].  Text that was decoded from a file by the
    strict UTF-8 codec holds Unicode scalar values only, and on those
    Python's encoder is total and is this function. *)
Definition encode_utf8 (s : pystr) : bytes := flat_map encode_char s.

End Str.

Declare Scope pystr_scope.
Delimit Scope pystr_scope with pystr.
Infix "=?" := Str.eqb (at level 70) : pystr_scope.
Infix "+" := Str.add : pystr_scope.

(** ** Exceptions *)

(** The exception classes that opening and reading a text file raises
    on failure, with their place in Python's class hierarchy.  All of
    them derive from [Exception]; [KeyboardInterrupt] and [SystemExit],
    which do not, are no failures of a read and are left out. *)
Inductive exc_class :=
| Exception
| OSError
| FileNotFoundError
| PermissionError
| IsADirectoryError
| NotADirectoryError
| ValueError
| UnicodeDecodeError
| MemoryError.

(** The direct base class; the base of [Exception] lies outside the
    classes above. *)
Definition base (c : exc_class) : option exc_class :=
  match c with
  | Exception => None
  | OSError => Some Exception
  | FileNotFoundError => Some OSError
  | PermissionError => Some OSError
  | IsADirectoryError => Some OSError
  | NotADirectoryError => Some OSError
  | ValueError => Some Exception
  | UnicodeDecodeError => Some ValueError
  | MemoryError => Some Exception
  end.

Definition exc_class_eqb (c d : exc_class) : bool :=
  match c, d with
  | Exception, Exception
  | OSError, OSError
  | FileNotFoundError, FileNotFoundError
  | PermissionError, PermissionError
  | IsADirectoryError, IsADirectoryError
  | NotADirectoryError, NotADirectoryError
  | ValueError, ValueError
  | UnicodeDecodeError, UnicodeDecodeError
  | MemoryError, MemoryError => true
  | _, _ => false
  end.

(** [issubclass(c, d)], walking up the base classes; the hierarchy
    above is three levels deep. *)
Fixpoint issubclass_upto (depth : nat) (c d : exc_class) : bool :=
  exc_class_eqb c d ||
  match depth, base c with
  | S depth', Some c' => issubclass_upto depth' c' d
  | _, _ => false
  end.

Definition issubclass : exc_class -> exc_class -> bool := issubclass_upto 3.

(** A raised exception: its class and [str(e)]. *)
Record exn := { exc_type : exc_class; str : pystr }.

Definition isinstance (e : exn) (c : exc_class) : bool :=
  issubclass (exc_type e) c.

(** ** The environment of a request *)

(** What a call into the environment comes back with: a value, or a
    raised exception. *)
Inductive outcome (A : Type) :=
| Ok (a : A)
| Failed (e : exn).

Arguments Ok {A} a.
Arguments Failed {A} e.

(** How a piece of the program ends: it returns a value, raises an
    exception, or runs forever. *)
Inductive result (A : Type) :=
| Return (a : A)
| Raise (e : exn)
| Forever.

Arguments Return {A} a.
Arguments Raise {A} e.
Arguments Forever {A}.

(** The state of the file system, as the handler observes it: what
    [open(filename, 'r', encoding='utf-8')] followed by [f.read()] gives
    for each file name, resolved against the working directory. *)
Definition filesystem := pystr -> outcome pystr.

(** ** Programs: state and exceptions *)

Section Program.

Variable S : Type.

Definition prog (A : Type) := S -> S * result A.

Definition ret {A} (a : A) : prog A := fun s => (s, Return a).

Definition bind {A B} (m : prog A) (k : A -> prog B) : prog B :=
  fun s =>
    match m s with
    | (s', Return a) => k a s'
    | (s', Raise e) => (s', Raise e)
    | (s', Forever) => (s', Forever)
    end.

Definition raise {A} (e : exn) : prog A := fun s => (s, Raise e).

(** A call into the environment that leaves the state alone. *)
Definition call {A} (r : outcome A) : prog A :=
  fun s => (s, match r with Ok a => Return a | Failed e => Raise e end).

Definition modify (f : S -> S) : prog unit := fun s => (f s, Return tt).

(** [try: body except C1: h1 except C2 as e: h2 ...]: the first clause
    whose class the exception is an instance of handles it; with no
    such clause the exception propagates. *)
Fixpoint handle_with {A} (clauses : list (exc_class * (exn -> prog A)))
    (e : exn) : prog A :=
  match clauses with
  | [] => raise e
  | (c, h) :: rest => if isinstance e c then h e else handle_with rest e
  end.

Definition try_except {A} (body : prog A)
    (clauses : list (exc_class * (exn -> prog A))) : prog A :=
  fun s =>
    match body s with
    | (s', Return a) => (s', Return a)
    | (s', Raise e) => handle_with clauses e s'
    | (s', Forever) => (s', Forever)
    end.

(** [try: body finally: cleanup]: the clean-up runs when the body
    returns or raises, and an exception of its own takes over. *)
Definition try_finally {A} (body : prog A) (cleanup : prog unit) : prog A :=
  fun s =>
    match body s with
    | (s', Forever) => (s', Forever)
    | (s', r) =>
        match cleanup s' with
        | (s'', Return _) => (s'', r)
        | (s'', Raise e) => (s'', Raise e)
        | (s'', Forever) => (s'', Forever)
        end
    end.

End Program.

Arguments ret {S A} a.
Arguments bind {S A B} m k.
Arguments raise {S A} e.
Arguments call {S A} r.
Arguments modify {S} f.
Arguments handle_with {S A} clauses e.
Arguments try_except {S A} body clauses.
Arguments try_finally {S A} body cleanup.

Declare Scope prog_scope.
Delimit Scope prog_scope with prog.
Notation "x <- m ;; k" := (bind m (fun x => k))
  (at level 100, m at next level, right associativity) : prog_scope.
Notation "m ;; k" := (bind m (fun _ => k))
  (at level 100, right associativity) : prog_scope.

(** ** The request handler's state *)

(** What the handler does to the outside: the calls that build the
    response, in the order they are made, and the names of the files it
    tries to open. *)
Inductive event :=
| Status (code : Z)
| Header (keyword value : pystr)
| EndHeaders
| Body (data : bytes).

Record handler_state := {
  wfile : list event;
  opened : list pystr
}.

Definition initial : handler_state := {| wfile := []; opened := [] |}.

Definition handler := prog handler_state.

Definition emit (ev : event) : handler unit :=
  modify (fun s => {| wfile := (wfile s ++ [ev])%list; opened := opened s |}).

(** The methods of the base request handler that build the response,
    as the calls the handler makes.  What the base class does on its
    own behind them is left out: [send_response] logs the request and
    adds a [Server] and a [Date] header to every response, so a
    response on the wire has these two headers before the ones recorded
    here.  Writing to the client's socket is taken to succeed. *)
Definition send_response (code : Z) : handler unit := emit (Status code).

Definition send_header (keyword value : pystr) : handler unit :=
  emit (Header keyword value).

Definition end_headers : handler unit := emit EndHeaders.

Definition wfile_write (data : bytes) : handler unit := emit (Body data).

(** [with open(filename, 'r', encoding='utf-8') as f: content = f.read()] *)
Definition open_read (fs : filesystem) (filename : pystr) : handler pystr :=
  (modify (fun s => {| wfile := wfile s;
                       opened := (opened s ++ [filename])%list |}) ;;
   call (fs filename))%prog.

(** ** [urllib.parse] *)

Module ParseResult.
Record t := {
  scheme : pystr;
  netloc : pystr;
  path : pystr;
  params : pystr;
  query : pystr;
  fragment : pystr
}.
End ParseResult.

(** ** [urllib.parse.urlparse] of the standard library *)

Module Urllib.

Local Open Scope string_scope.

(** [s.find(c)] for a character, [None] for the -1 of Python. *)
Fixpoint find (c : N) (s : pystr) : option nat :=
  match s with
  | [] => None
  | x :: s' => if N.eqb x c then Some 0%nat else option_map S (find c s')
  end.

(** [s.find(c, start)] *)
Definition find_from (c : N) (start : nat) (s : pystr) : option nat :=
  option_map (fun i => (start + i)%nat) (find c (skipn start s)).

(** [s.rfind(c)] *)
Definition rfind (c : N) (s : pystr) : option nat :=
  option_map (fun i => (List.length s - 1 - i)%nat) (find c (rev s)).

(** [c in s] *)
Definition contains (c : N) (s : pystr) : bool :=
  match find c s with Some _ => true | None => false end.

(** [s.replace(c, "")] *)
Definition remove (c : N) (s : pystr) : pystr :=
  filter (fun x => negb (N.eqb x c)) s.

(** [s.partition(c)]: the middle component is whether [c] was found. *)
Definition partition (c : N) (s : pystr) : pystr * bool * pystr :=
  match find c s with
  | Some i => (firstn i s, true, skipn (S i) s)
  | None => (s, false, [])
  end.

(** [s.rpartition(c)[2]] *)
Definition after_last (c : N) (s : pystr) : pystr :=
  match rfind c s with
  | Some i => skipn (S i) s
  | None => s
  end.

(** [s.split(c, 1)], for [c in s] *)
Definition split1 (c : N) (s : pystr) : pystr * pystr :=
  match find c s with
  | Some i => (firstn i s, skipn (S i) s)
  | None => (s, [])
  end.

(** [s.lstrip(_WHATWG_C0_CONTROL_OR_SPACE)]: the characters up to the
    space, U+0020. *)
Fixpoint lstrip_c0_control_or_space (s : pystr) : pystr :=
  match s with
  | c :: s' => if (c <=? 0x20)%N then lstrip_c0_control_or_space s' else s
  | [] => []
  end.

Definition isascii (s : pystr) : bool := forallb (fun c => (c <? 0x80)%N) s.

(** [c.isascii() and c.isalpha()] *)
Definition isascii_alpha (c : N) : bool :=
  ((65 <=? c)%N && (c <=? 90)%N) || ((97 <=? c)%N && (c <=? 122)%N).

(** [c in scheme_chars]: the letters, the digits and [+-.]. *)
Definition in_scheme_chars (c : N) : bool :=
  isascii_alpha c || ((48 <=? c)%N && (c <=? 57)%N) ||
  N.eqb c 43 || N.eqb c 45 || N.eqb c 46.

Definition uses_params : list pystr :=
  [ lit ""; lit "ftp"; lit "hdl"; lit "prospero"; lit "http"; lit "imap";
    lit "https"; lit "shttp"; lit "rtsp"; lit "rtspu"; lit "sip"; lit "sips";
    lit "mms"; lit "sftp"; lit "tel" ].

Definition ValueError_ (msg : pystr) : exn :=
  {| exc_type := ValueError; str := msg |}.

(** Sequencing of calls that may raise. *)
Definition and_then {A B} (r : outcome A) (k : A -> outcome B) : outcome B :=
  match r with
  | Ok a => k a
  | Failed e => Failed e
  end.

Definition _splitparams (url : pystr) : pystr * pystr :=
  let semicolon :=
    match rfind 47 url with
    | Some slash => find_from 59 slash url
    | None => find 59 url
    end in
  match semicolon with
  | Some i => (firstn i url, skipn (S i) url)
  | None => (url, [])
  end.

Definition _splitnetloc (url : pystr) (start : nat) : pystr * pystr :=
  let delim :=
    fold_left
      (fun delim c =>
         match find_from c start url with
         | Some wdelim => Nat.min delim wdelim
         | None => delim
         end)
      [47; 63; 35]%N (List.length url) in
  (firstn (delim - start) (skipn start url), skipn delim url).

Section Checks.

(** [_check_bracketed_host], which asks [ipaddress] and [re] whether
    the host between the brackets is valid, and
    [unicodedata.normalize('NFKC', s)]. *)
Variable _check_bracketed_host : pystr -> outcome unit.
Variable normalize_NFKC : pystr -> pystr.

Definition _check_bracketed_netloc (netloc : pystr) : outcome unit :=
  let hostname_and_port := after_last 64 netloc in
  match partition 91 hostname_and_port with
  | (before_bracket, true, bracketed) =>
      (* No data is allowed before a bracket. *)
      match before_bracket with
      | _ :: _ => Failed (ValueError_ "Invalid IPv6 URL")
      | [] =>
          let '(hostname, _, port) := partition 93 bracketed in
          (* No data is allowed after the bracket but before the port
             delimiter. *)
          match port with
          | c :: _ =>
              if N.eqb c 58 then _check_bracketed_host hostname
              else Failed (ValueError_ "Invalid IPv6 URL")
          | [] => _check_bracketed_host hostname
          end
      end
  | (_, false, _) =>
      let '(hostname, _, port) := partition 58 hostname_and_port in
      _check_bracketed_host hostname
  end.

Definition _checknetloc (netloc : pystr) : outcome unit :=
  match netloc with
  | [] => Ok tt
  | _ :: _ =>
      if isascii netloc then Ok tt
      else
        let n := remove 63 (remove 35 (remove 58 (remove 64 netloc))) in
        let netloc2 := normalize_NFKC n in
        if Str.eqb n netloc2 then Ok tt
        else if existsb (fun c => contains c netloc2) [47; 63; 35; 64; 58]%N
        then Failed (ValueError_
                       (Str.add "netloc '"
                          (Str.add netloc
                             "' contains invalid characters under NFKC normalization")))
        else Ok tt
  end.

Record SplitResult := {
  split_scheme : pystr;
  split_netloc : pystr;
  split_path : pystr;
  split_query : pystr;
  split_fragment : pystr
}.

(** [urlsplit(url)], with the default scheme [''] and fragments
    allowed. *)
Definition urlsplit (url : pystr) : outcome SplitResult :=
  let url := lstrip_c0_control_or_space url in
  let url := remove 10 (remove 13 (remove 9 url)) in
  let '(scheme, url) :=
    match find 58 url, url with
    | Some (S _ as i), c :: _ =>
        if isascii_alpha c && forallb in_scheme_chars (firstn i url)
        then (Str.lower (firstn i url), skipn (S i) url)
        else ([], url)
    | _, _ => ([], url)
    end in
  and_then
    (if Str.eqb (firstn 2 url) "//" then
       let '(netloc, url) := _splitnetloc url 2 in
       if (contains 91 netloc && negb (contains 93 netloc)) ||
          (contains 93 netloc && negb (contains 91 netloc))
       then Failed (ValueError_ "Invalid IPv6 URL")
       else
         and_then
           (if contains 91 netloc && contains 93 netloc
            then _check_bracketed_netloc netloc else Ok tt)
           (fun _ => Ok (netloc, url))
     else Ok ([], url))
    (fun '(netloc, url) =>
       let '(url, fragment) :=
         if contains 35 url then split1 35 url else (url, []) in
       let '(url, query) :=
         if contains 63 url then split1 63 url else (url, []) in
       and_then (_checknetloc netloc)
         (fun _ =>
            Ok {| split_scheme := scheme; split_netloc := netloc;
                  split_path := url; split_query := query;
                  split_fragment := fragment |})).

Definition urlparse (url : pystr) : outcome ParseResult.t :=
  and_then (urlsplit url)
    (fun splitresult =>
       let scheme := split_scheme splitresult in
       let url := split_path splitresult in
       let '(url, params) :=
         if existsb (Str.eqb scheme) uses_params && contains 59 url
         then _splitparams url else (url, []) in
       Ok {| ParseResult.scheme := scheme;
             ParseResult.netloc := split_netloc splitresult;
             ParseResult.path := url;
             ParseResult.params := params;
             ParseResult.query := split_query splitresult;
             ParseResult.fragment := split_fragment splitresult |}).

End Checks.

End Urllib.

(** ** [TweetStreamHandler] *)

Section TweetStreamHandler.

(** [urllib.parse.urlparse], of Python's standard library: the parsed
    URL, or the [ValueError] it raises on a URL it rejects. *)
Variable urlparse : pystr -> outcome ParseResult.t.

Variable fs : filesystem.

Open Scope string_scope.
Open Scope prog_scope.
Open Scope pystr_scope.

Definition serve_file (filename content_type : pystr) : handler unit :=
  try_except
    (content <- open_read fs filename ;;
     send_response 200 ;;
     send_header "Content-type" (content_type + "; charset=utf-8") ;;
     send_header "Cache-Control" "no-cache" ;;
     end_headers ;;
     wfile_write (Str.encode_utf8 content))
    [ (FileNotFoundError, fun _ =>
         send_response 404 ;;
         send_header "Content-type" "text/plain" ;;
         end_headers ;;
         wfile_write (bytes_lit "File not found"));
      (Exception, fun e =>
         send_response 500 ;;
         send_header "Content-type" "text/plain" ;;
         end_headers ;;
         wfile_write (Str.encode_utf8 ("Server error: " + str e))) ].

Definition do_GET (self_path : pystr) : handler unit :=
  (* Parse the URL *)
  parsed_path <- call (urlparse self_path) ;;
  let path := ParseResult.path parsed_path in
  (* Handle health check *)
  if path =? "/health" then
    send_response 200 ;;
    send_header "Content-type" "text/plain" ;;
    end_headers ;;
    wfile_write (bytes_lit "healthy")
  (* Handle root path - serve index.html *)
  else if (path =? "/") || (path =? "/index.html") then
    serve_file "index.html" "text/html"
  (* Handle CSS files *)
  else if Str.endswith path ".css" then
    serve_file (Str.slice_from 1 path) "text/css" (* Remove leading slash *)
  (* Handle JS files *)
  else if Str.endswith path ".js" then
    serve_file (Str.slice_from 1 path) "application/javascript"
      (* Remove leading slash *)
  (* Default to index.html for SPA routing *)
  else
    serve_file "index.html" "text/html".

End TweetStreamHandler.

(** ** A request and its response *)

Local Open Scope string_scope.

(** One GET request, handled from the initial state. *)
Definition GET (urlparse : pystr -> outcome ParseResult.t) (fs : filesystem)
    (url : pystr) : handler_state * result unit :=
  do_GET urlparse fs url initial.

Record response := {
  status : Z;
  headers : list (pystr * pystr);
  body : bytes
}.

(** The header lines up to the blank line that ends them, and what is
    written after it. *)
Fixpoint read_headers (w : list event)
    : option (list (pystr * pystr) * list event) :=
  match w with
  | Header k v :: w' =>
      match read_headers w' with
      | Some (hs, rest) => Some ((k, v) :: hs, rest)
      | None => None
      end
  | EndHeaders :: w' => Some ([], w')
  | _ => None
  end.

(** What was written is one response: a status line, header lines, the
    end of the headers and one body. *)
Definition response_of (w : list event) : option response :=
  match w with
  | Status code :: w' =>
      match read_headers w' with
      | Some (hs, [Body data]) =>
          Some {| status := code; headers := hs; body := data |}
      | _ => None
      end
  | _ => None
  end.

(** Header field names are case-insensitive. *)
Fixpoint get_header (name : pystr) (hs : list (pystr * pystr))
    : option pystr :=
  match hs with
  | [] => None
  | (k, v) :: hs' =>
      if Str.eqb (Str.lower k) (Str.lower name) then Some v
      else get_header name hs'
  end.

(** ** The routing rules of the design *)

(** The five rules of the request routing table, each with the condition
    the table gives it. *)
Inductive rule := Health | Index | Stylesheet | Script | Fallback.

Definition applies (r : rule) (path : pystr) : bool :=
  let health := Str.eqb path "/health" in
  let index := Str.eqb path "/" || Str.eqb path "/index.html" in
  let css := Str.endswith path ".css" in
  let js := Str.endswith path ".js" in
  match r with
  | Health => health
  | Index => index
  | Stylesheet => css
  | Script => js
  | Fallback => negb (health || index || css || js)
  end.

(** The first rule of the table, in its order, whose condition holds. *)
Definition first_match (path : pystr) : rule :=
  if applies Health path then Health
  else if applies Index path then Index
  else if applies Stylesheet path then Stylesheet
  else if applies Script path then Script
  else Fallback.

(** What each rule answers with. *)
Definition action (fs : filesystem) (r : rule) (path : pystr) : handler unit :=
  match r with
  | Health =>
      (send_response 200 ;;
       send_header "Content-type" "text/plain" ;;
       end_headers ;;
       wfile_write (bytes_lit "healthy"))%prog
  | Index => serve_file fs "index.html" "text/html"
  | Stylesheet => serve_file fs (Str.slice_from 1 path) "text/css"
  | Script => serve_file fs (Str.slice_from 1 path) "application/javascript"
  | Fallback => serve_file fs "index.html" "text/html"
  end.

(** Stripping the single leading slash of a path, by matching it. *)
Definition strip_leading_slash (path : pystr) : pystr :=
  match path with
  | c :: rest => if N.eqb c 47 then rest else path
  | [] => path
  end.

(** ** Concrete environments *)

(** [urlparse] with stand-ins for the two library calls it is given:
    a host in brackets is rejected, and normalisation changes nothing.
    They are reached only by a URL whose authority holds both brackets
    or a character outside ASCII, which none of the URLs below does. *)
Definition urlparse_lib : pystr -> outcome ParseResult.t :=
  Urllib.urlparse
    (fun _ => Failed (Urllib.ValueError_ "Invalid IPv6 URL"))
    (fun s => s).

(** The parse of a request target that is a path with a query string
    and a fragment. *)
Definition target (path query fragment : pystr) : ParseResult.t :=
  {| ParseResult.scheme := []; ParseResult.netloc := [];
     ParseResult.path := path; ParseResult.params := [];
     ParseResult.query := query; ParseResult.fragment := fragment |}.

(** A flat directory given by its readable text files, looked up by
    the name as it is written: a listed name is read, a name that goes
    through a listed file as if it were a directory is refused, and
    every other name is missing. *)
Definition directory (files : list (pystr * pystr)) : filesystem :=
  fun filename =>
    match List.find (fun entry => Str.eqb filename (fst entry)) files with
    | Some entry => Ok (snd entry)
    | None =>
        if existsb
             (fun entry => Str.startswith filename (Str.add (fst entry) "/"))
             files
        then
          Failed {| exc_type := NotADirectoryError;
                    str := Str.add "[Errno 20] Not a directory: '"
                                   (Str.add filename "'") |}
        else
          Failed {| exc_type := FileNotFoundError;
                    str := Str.add "[Errno 2] No such file or directory: '"
                                   (Str.add filename "'") |}
    end.

(** The root directory of the design's concrete scenario. *)
Definition app_dir : filesystem :=
  directory [ (lit "index.html", lit "<html>hi</html>");
              (lit "style.css", lit "body{}");
              (lit "app.js", lit "console.log(1)") ].

(** The same directory with a file called [health], and with an
    unreadable style sheet. *)
Definition app_dir_with_health : filesystem :=
  fun filename =>
    if Str.eqb filename "health" then Ok (lit "not healthy")
    else app_dir filename.

Definition app_dir_unreadable : filesystem :=
  fun filename =>
    if Str.eqb filename "style.css" then
      Failed {| exc_type := PermissionError;
                str := lit "[Errno 13] Permission denied: 'style.css'" |}
    else app_dir filename.

(** ** The start-up block *)

(** The operating system calls of the start-up block, each with its
    result in the environment the process is started in. *)
Record os := {
  chdir : pystr -> outcome unit;
  (** binding and activating the listening socket, in the constructor
      of [socketserver.TCPServer] *)
  server_bind : pystr * Z -> outcome unit;
  listdir : pystr -> outcome (list pystr)
}.

(** One formatted value of an f-string. *)
Inductive fpart :=
| Text (s : pystr)
| Int (n : Z)
| StrList (l : list pystr).

Record process := {
  cwd : option pystr;
  listening : option (pystr * Z);
  stdout : list (list fpart);
  serving : bool
}.

Definition started : process :=
  {| cwd := None; listening := None; stdout := []; serving := false |}.

Definition os_chdir (env : os) (dir : pystr) : prog process unit :=
  (call (chdir env dir) ;;
   modify (fun p => {| cwd := Some dir; listening := listening p;
                       stdout := stdout p; serving := serving p |}))%prog.

Definition os_listdir (env : os) (dir : pystr) : prog process (list pystr) :=
  call (listdir env dir).

Definition print (line : list fpart) : prog process unit :=
  modify (fun p => {| cwd := cwd p; listening := listening p;
                      stdout := (stdout p ++ [line])%list;
                      serving := serving p |}).

(** [socketserver.TCPServer(server_address, RequestHandlerClass)]: the
    constructor binds the address, and raises when it cannot. *)
Definition TCPServer (env : os) (server_address : pystr * Z)
    : prog process (pystr * Z) :=
  (call (server_bind env server_address) ;;
   modify (fun p => {| cwd := cwd p; listening := Some server_address;
                       stdout := stdout p; serving := serving p |}) ;;
   ret server_address)%prog.

Definition server_close : prog process unit :=
  modify (fun p => {| cwd := cwd p; listening := None;
                      stdout := stdout p; serving := serving p |}).

(** [httpd.serve_forever()]: the accept loop, which hands each request
    to the handler and does not return by itself.  The model follows
    the script up to the entry of the loop; a signal that ends the
    process later is outside it. *)
Definition serve_forever : prog process unit :=
  fun p => ({| cwd := cwd p; listening := listening p;
               stdout := stdout p; serving := true |}, Forever).

(** [with server as httpd: body]: the server is closed on the way out. *)
Definition with_server {A} (body : prog process A) : prog process A :=
  try_finally body server_close.

Definition main (env : os) : prog process unit :=
  (let PORT := 8080%Z in
   (* Change to the directory containing the files *)
   os_chdir env "/app" ;;
   httpd <- TCPServer env (lit "", PORT) ;;
   with_server
     (print [Text "TweetStream frontend server running on port "; Int PORT] ;;
      files <- os_listdir env "." ;;
      print [Text "Files in directory: "; StrList files] ;;
      serve_forever))%prog.

(** How the interpreter ends a script: an exception that no handler
    caught is reported as a traceback on the standard error stream and
    the exit status is 1; a script that runs to its end exits with 0. *)
Record exit := {
  exit_status : Z;
  traceback : option exn
}.

(** The process started on the script; [None] when it does not end. *)
Definition run_script (env : os) : process * option exit :=
  match main env started with
  | (p, Return _) => (p, Some {| exit_status := 0; traceback := None |})
  | (p, Raise e) => (p, Some {| exit_status := 1; traceback := Some e |})
  | (p, Forever) => (p, None)
  end.

(** An environment in which port 8080 is taken. *)
Definition port_in_use : os :=
  {| chdir := fun _ => Ok tt;
     server_bind := fun _ =>
       Failed {| exc_type := OSError;
                 str := lit "[Errno 98] Address already in use" |};
     listdir := fun _ => Ok [lit "index.html"] |}.

Definition deployed : os :=
  {| chdir := fun _ => Ok tt;
     server_bind := fun _ => Ok tt;
     listdir := fun _ =>
       Ok [lit "index.html"; lit "style.css"; lit "app.js"] |}.

(** The three responses of [serve_file] and the health response, as the
    calls that write them. *)
Definition served (content_type content : pystr) : list event :=
  [ Status 200;
    Header "Content-type" (Str.add content_type "; charset=utf-8");
    Header "Cache-Control" "no-cache";
    EndHeaders;
    Body (Str.encode_utf8 content) ].

Definition not_found : list event :=
  [ Status 404;
    Header "Content-type" "text/plain";
    EndHeaders;
    Body (bytes_lit "File not found") ].

Definition server_error (e : exn) : list event :=
  [ Status 500;
    Header "Content-type" "text/plain";
    EndHeaders;
    Body (Str.encode_utf8 (Str.add "Server error: " (str e))) ].

Definition healthy : list event :=
  [ Status 200;
    Header "Content-type" "text/plain";
    EndHeaders;
    Body (bytes_lit "healthy") ].

(** The same responses, as status, headers and body. *)
Definition file_response (content_type content : pystr) : response :=
  {| status := 200;
     headers := [ (lit "Content-type", Str.add content_type "; charset=utf-8");
                  (lit "Cache-Control", lit "no-cache") ];
     body := Str.encode_utf8 content |}.

Definition not_found_response : response :=
  {| status := 404;
     headers := [ (lit "Content-type", lit "text/plain") ];
     body := bytes_lit "File not found" |}.

Definition server_error_response (e : exn) : response :=
  {| status := 500;
     headers := [ (lit "Content-type", lit "text/plain") ];
     body := (bytes_lit "Server error: " ++ Str.encode_utf8 (str e))%list |}.

Definition health_response : response :=
  {| status := 200;
     headers := [ (lit "Content-type", lit "text/plain") ];
     body := bytes_lit "healthy" |}.

(** * Properties *)

(** ** Strings *)

Lemma eqb_eq (a b : pystr) : Str.eqb a b = true <-> a = b.
Proof.
  revert b; induction a as [|x a IH]; intros [|y b]; simpl;
    try (split; [discriminate | discriminate]); [tauto|].
  rewrite andb_true_iff, N.eqb_eq, IH.
  split; [intros [-> ->]; reflexivity | intros [= -> ->]; auto].
Qed.

Lemma eqb_refl (a : pystr) : Str.eqb a a = true.
Proof. apply eqb_eq; reflexivity. Qed.

Lemma eqb_neq (a b : pystr) : Str.eqb a b = false <-> a <> b.
Proof.
  rewrite <- eqb_eq. destruct (Str.eqb a b); split; congruence.
Qed.

Lemma endswith_app (prefix suffix : pystr) :
  Str.endswith (prefix ++ suffix)%list suffix = true.
Proof.
  unfold Str.endswith. rewrite length_app.
  apply andb_true_iff; split.
  - apply Nat.leb_le; lia.
  - replace (List.length prefix + List.length suffix - List.length suffix)%nat
      with (List.length prefix + 0)%nat by lia.
    rewrite skipn_app, Nat.add_0_r, skipn_all.
    replace (List.length prefix - List.length prefix)%nat with 0%nat by lia.
    apply eqb_refl.
Qed.

Lemma endswith_inv (s suffix : pystr) :
  Str.endswith s suffix = true -> exists prefix, s = (prefix ++ suffix)%list.
Proof.
  unfold Str.endswith; intros H.
  apply andb_true_iff in H as [_ H]. apply eqb_eq in H.
  exists (firstn (List.length s - List.length suffix) s).
  pose proof (firstn_skipn (List.length s - List.length suffix) s) as E.
  rewrite H in E. symmetry; exact E.
Qed.

(** ** Exceptions *)

Lemma isinstance_Exception (e : exn) : isinstance e Exception = true.
Proof. destruct e as [[] msg]; reflexivity. Qed.

(** ** [serve_file], run *)

Lemma serve_file_initial (fs : filesystem) (filename content_type : pystr) :
  serve_file fs filename content_type initial =
  ({| wfile :=
        match fs filename with
        | Ok content => served content_type content
        | Failed e =>
            if isinstance e FileNotFoundError then not_found
            else server_error e
        end;
      opened := [filename] |},
   Return tt).
Proof.
  unfold serve_file, try_except, bind, open_read; simpl.
  destruct (fs filename) as [content|e]; simpl; [reflexivity|].
  destruct (isinstance e FileNotFoundError); [reflexivity|].
  rewrite isinstance_Exception. reflexivity.
Qed.

Lemma encode_utf8_add (a b : pystr) :
  Str.encode_utf8 (Str.add a b) =
  (Str.encode_utf8 a ++ Str.encode_utf8 b)%list.
Proof. apply flat_map_app. Qed.

(** ** Routing *)

Lemma css_not_js (path : pystr) :
  Str.endswith path ".css" = true -> Str.endswith path ".js" = false.
Proof.
  intros Hcss. destruct (Str.endswith path ".js") eqn:Hjs; [|reflexivity].
  apply endswith_inv in Hcss as [p1 ->].
  apply endswith_inv in Hjs as [p2 E].
  apply (f_equal (@rev N)) in E. rewrite !rev_app_distr in E.
  vm_compute (rev (lit ".css")) in E. vm_compute (rev (lit ".js")) in E.
  simpl in E. discriminate E.
Qed.

Lemma do_GET_first_match urlparse fs url parsed :
  urlparse url = Ok parsed ->
  do_GET urlparse fs url =
  action fs (first_match (ParseResult.path parsed)) (ParseResult.path parsed).
Proof.
  intros Hparse. unfold do_GET, first_match, applies.
  unfold bind at 1. unfold call. rewrite Hparse.
  destruct (Str.eqb _ "/health"); [reflexivity|].
  destruct (Str.eqb _ "/" || Str.eqb _ "/index.html"); [reflexivity|].
  destruct (Str.endswith _ ".css"); [reflexivity|].
  destruct (Str.endswith _ ".js"); reflexivity.
Qed.

Lemma GET_parse_error urlparse fs url e :
  urlparse url = Failed e -> GET urlparse fs url = (initial, Raise e).
Proof.
  intros Hparse. unfold GET, do_GET, bind, call. rewrite Hparse. reflexivity.
Qed.

Lemma applies_first_match (path : pystr) :
  applies (first_match path) path = true.
Proof.
  unfold first_match.
  destruct (applies Health path) eqn:H1; [exact H1|].
  destruct (applies Index path) eqn:H2; [exact H2|].
  destruct (applies Stylesheet path) eqn:H3; [exact H3|].
  destruct (applies Script path) eqn:H4; [exact H4|].
  unfold applies in *. rewrite H1, H2, H3, H4. reflexivity.
Qed.

Lemma applies_unique (path : pystr) (r r' : rule) :
  applies r path = true -> applies r' path = true -> r = r'.
Proof.
  assert (Hh : Str.eqb path "/health" = true ->
               (Str.eqb path "/" || Str.eqb path "/index.html") = false /\
               Str.endswith path ".css" = false /\
               Str.endswith path ".js" = false).
  { intros H; apply eqb_eq in H; subst path. repeat split; reflexivity. }
  assert (Hi : (Str.eqb path "/" || Str.eqb path "/index.html") = true ->
               Str.endswith path ".css" = false /\
               Str.endswith path ".js" = false).
  { intros H; apply orb_true_iff in H as [H|H]; apply eqb_eq in H;
      subst path; split; reflexivity. }
  pose proof (css_not_js path) as Hc.
  unfold applies. revert Hh Hi Hc.
  destruct (Str.eqb path "/health"),
           (Str.eqb path "/" || Str.eqb path "/index.html"),
           (Str.endswith path ".css"), (Str.endswith path ".js");
    intros Hh Hi Hc;
    try (destruct (Hh eq_refl) as (? & ? & ?); discriminate);
    try (destruct (Hi eq_refl) as (? & ?); discriminate);
    try (specialize (Hc eq_refl); discriminate);
    destruct r, r'; simpl; intros; congruence.
Qed.

Lemma GET_first_match urlparse fs url parsed :
  urlparse url = Ok parsed ->
  GET urlparse fs url =
  action fs (first_match (ParseResult.path parsed)) (ParseResult.path parsed)
         initial.
Proof.
  intros Hparse. unfold GET.
  rewrite (do_GET_first_match urlparse fs url parsed Hparse).
  reflexivity.
Qed.

Lemma first_match_applies (path : pystr) (r : rule) :
  applies r path = true -> first_match path = r.
Proof.
  intros H. apply (applies_unique path); [|exact H].
  apply applies_first_match.
Qed.

(** ** The responses of [serve_file] *)

Lemma response_of_served content_type content :
  response_of (served content_type content) =
  Some (file_response content_type content).
Proof. reflexivity. Qed.

Lemma response_of_not_found : response_of not_found = Some not_found_response.
Proof. reflexivity. Qed.

Lemma response_of_server_error e :
  response_of (server_error e) = Some (server_error_response e).
Proof.
  unfold server_error, server_error_response.
  rewrite encode_utf8_add. reflexivity.
Qed.

Lemma response_of_healthy : response_of healthy = Some health_response.
Proof. reflexivity. Qed.

Lemma serve_file_response fs filename content_type :
  response_of (wfile (fst (serve_file fs filename content_type initial))) =
  Some match fs filename with
       | Ok content => file_response content_type content
       | Failed e =>
           if isinstance e FileNotFoundError then not_found_response
           else server_error_response e
       end.
Proof.
  rewrite serve_file_initial; simpl.
  destruct (fs filename) as [content|e].
  - apply response_of_served.
  - destruct (isinstance e FileNotFoundError).
    + apply response_of_not_found.
    + apply response_of_server_error.
Qed.

(** C2. For every file name and content type [serve_file] returns
    normally, having opened that one file and written exactly one of
    three responses: 200 with the file's contents when the read
    succeeds; 404 with content type [text/plain] and body
    [File not found] when the file does not exist; 500 with content type
    [text/plain] and body [Server error: ] followed by the description
    of the failure on any other failure.  No exception leaves it. *)
Theorem serve_file_three_outcomes (fs : filesystem)
    (filename content_type : pystr) :
  exists w,
    serve_file fs filename content_type initial =
      ({| wfile := w; opened := [filename] |}, Return tt) /\
    match fs filename with
    | Ok content =>
        response_of w =
        Some {| status := 200;
                headers := [ (lit "Content-type",
                              Str.add content_type "; charset=utf-8");
                             (lit "Cache-Control", lit "no-cache") ];
                body := Str.encode_utf8 content |}
    | Failed e =>
        if exc_class_eqb (exc_type e) FileNotFoundError then
          response_of w =
          Some {| status := 404;
                  headers := [ (lit "Content-type", lit "text/plain") ];
                  body := bytes_lit "File not found" |}
        else
          response_of w =
          Some {| status := 500;
                  headers := [ (lit "Content-type", lit "text/plain") ];
                  body := (bytes_lit "Server error: " ++
                           Str.encode_utf8 (str e))%list |}
    end.
Proof.
  eexists; split; [apply serve_file_initial|].
  destruct (fs filename) as [content|e].
  - apply response_of_served.
  - replace (exc_class_eqb (exc_type e) FileNotFoundError)
      with (isinstance e FileNotFoundError)
      by (destruct e as [[] msg]; reflexivity).
    destruct (isinstance e FileNotFoundError).
    + apply response_of_not_found.
    + apply response_of_server_error.
Qed.

(** C5. When the read succeeds, [serve_file] answers 200, with the
    Content-Type header the given content type followed by
    [; charset=utf-8], the Cache-Control header [no-cache], and as body
    the file's contents encoded as UTF-8. *)
Theorem serve_file_success (fs : filesystem)
    (filename content_type content : pystr) :
  fs filename = Ok content ->
  exists r,
    response_of (wfile (fst (serve_file fs filename content_type initial))) =
      Some r /\
    status r = 200%Z /\
    get_header "Content-Type" (headers r) =
      Some (Str.add content_type "; charset=utf-8") /\
    get_header "Cache-Control" (headers r) = Some (lit "no-cache") /\
    body r = Str.encode_utf8 content.
Proof.
  intros Hread. eexists; split.
  - rewrite serve_file_response, Hread. reflexivity.
  - repeat split; reflexivity.
Qed.

Lemma serve_file_success_witness :
  app_dir "style.css" = Ok (lit "body{}") /\
  exists r,
    response_of (wfile (fst (serve_file app_dir "style.css" "text/css"
                                        initial))) = Some r /\
    status r = 200%Z /\
    get_header "Content-Type" (headers r) =
      Some (lit "text/css; charset=utf-8") /\
    get_header "Cache-Control" (headers r) = Some (lit "no-cache") /\
    body r = bytes_lit "body{}".
Proof.
  split; [reflexivity|].
  exact (serve_file_success app_dir "style.css" "text/css" "body{}" eq_refl).
Defined.

(** C8. The 404 and 500 responses of [serve_file] carry the single
    header [Content-type: text/plain], with no charset parameter and no
    Cache-Control header; a successful response carries a Content-Type
    ending in [; charset=utf-8] and [Cache-Control: no-cache]. *)
Theorem serve_file_error_headers (fs : filesystem)
    (filename content_type : pystr) :
  exists r,
    response_of (wfile (fst (serve_file fs filename content_type initial))) =
      Some r /\
    match fs filename with
    | Ok _ =>
        status r = 200%Z /\
        (exists v, get_header "Content-Type" (headers r) = Some v /\
                   Str.endswith v "; charset=utf-8" = true) /\
        get_header "Cache-Control" (headers r) = Some (lit "no-cache")
    | Failed _ =>
        (status r = 404%Z \/ status r = 500%Z) /\
        headers r = [ (lit "Content-type", lit "text/plain") ] /\
        get_header "Content-Type" (headers r) = Some (lit "text/plain") /\
        Str.endswith "text/plain" "; charset=utf-8" = false /\
        get_header "Cache-Control" (headers r) = None
    end.
Proof.
  eexists; split; [apply serve_file_response|].
  destruct (fs filename) as [content|e].
  - split; [reflexivity|]. split; [|reflexivity].
    eexists; split; [reflexivity|]. apply endswith_app.
  - destruct (isinstance e FileNotFoundError);
      (split; [auto|]); repeat split; reflexivity.
Qed.

(** ** The responses of [do_GET] *)

(** C3. In every state of the file system, a GET whose path component
    is exactly [/health] returns normally with the response 200,
    content type [text/plain], body [healthy], and opens no file: the
    health rule comes before every rule that serves a file, so a file
    called [health] changes nothing. *)
Theorem health_check (urlparse : pystr -> outcome ParseResult.t)
    (fs : filesystem) (url : pystr) (parsed : ParseResult.t) :
  urlparse url = Ok parsed ->
  ParseResult.path parsed = lit "/health" ->
  snd (GET urlparse fs url) = Return tt /\
  opened (fst (GET urlparse fs url)) = [] /\
  response_of (wfile (fst (GET urlparse fs url))) =
    Some {| status := 200;
            headers := [ (lit "Content-type", lit "text/plain") ];
            body := bytes_lit "healthy" |}.
Proof.
  intros Hparse Hpath. rewrite (GET_first_match urlparse fs url parsed Hparse).
  rewrite Hpath. repeat split; reflexivity.
Qed.

Lemma health_check_witness :
  urlparse_lib "/health?probe=1" = Ok (target "/health" "probe=1" "") /\
  app_dir_with_health "health" = Ok (lit "not healthy") /\
  snd (GET urlparse_lib app_dir_with_health "/health?probe=1") =
    Return tt /\
  opened (fst (GET urlparse_lib app_dir_with_health "/health?probe=1")) =
    [] /\
  response_of
    (wfile (fst (GET urlparse_lib app_dir_with_health
                     "/health?probe=1"))) =
    Some health_response.
Proof.
  split; [reflexivity|]. split; [reflexivity|].
  exact (health_check urlparse_lib app_dir_with_health
                      "/health?probe=1" (target "/health" "probe=1" "")
                      eq_refl eq_refl).
Defined.

(** C4. A path that is none of [/health], [/], [/index.html] and ends
    neither in [.css] nor in [.js] gets exactly what a GET of [/] gets:
    when [index.html] can be read, its contents as
    [text/html; charset=utf-8]. *)
Theorem spa_fallback (urlparse : pystr -> outcome ParseResult.t)
    (fs : filesystem) (url root : pystr) (parsed parsed_root : ParseResult.t) :
  urlparse root = Ok parsed_root ->
  ParseResult.path parsed_root = lit "/" ->
  urlparse url = Ok parsed ->
  ParseResult.path parsed <> lit "/health" ->
  ParseResult.path parsed <> lit "/" ->
  ParseResult.path parsed <> lit "/index.html" ->
  Str.endswith (ParseResult.path parsed) ".css" = false ->
  Str.endswith (ParseResult.path parsed) ".js" = false ->
  GET urlparse fs url = GET urlparse fs root /\
  forall content,
    fs "index.html" = Ok content ->
    response_of (wfile (fst (GET urlparse fs url))) =
      Some {| status := 200;
              headers := [ (lit "Content-type",
                            lit "text/html; charset=utf-8");
                           (lit "Cache-Control", lit "no-cache") ];
              body := Str.encode_utf8 content |}.
Proof.
  intros Hparse_root Hroot Hparse Hhealth Hslash Hindex Hcss Hjs.
  assert (Hfb : first_match (ParseResult.path parsed) = Fallback).
  { apply first_match_applies. unfold applies.
    apply eqb_neq in Hhealth, Hslash, Hindex.
    rewrite Hhealth, Hslash, Hindex, Hcss, Hjs. reflexivity. }
  rewrite (GET_first_match urlparse fs url parsed Hparse).
  rewrite (GET_first_match urlparse fs root parsed_root Hparse_root).
  rewrite Hfb, Hroot. split; [reflexivity|].
  intros content Hread. simpl action.
  rewrite serve_file_response, Hread. reflexivity.
Qed.

Lemma spa_fallback_witness :
  urlparse_lib "/" = Ok (target "/" "" "") /\
  urlparse_lib "/logo.png" = Ok (target "/logo.png" "" "") /\
  GET urlparse_lib app_dir "/logo.png" = GET urlparse_lib app_dir "/" /\
  response_of (wfile (fst (GET urlparse_lib app_dir "/logo.png"))) =
    Some (file_response "text/html" "<html>hi</html>").
Proof.
  split; [reflexivity|]. split; [reflexivity|].
  destruct (spa_fallback urlparse_lib app_dir "/logo.png" "/"
              (target "/logo.png" "" "") (target "/" "" "")
              eq_refl eq_refl eq_refl
              (proj1 (eqb_neq (lit "/logo.png") "/health") eq_refl)
              (proj1 (eqb_neq (lit "/logo.png") "/") eq_refl)
              (proj1 (eqb_neq (lit "/logo.png") "/index.html") eq_refl)
              eq_refl eq_refl) as [Hsame Hbody].
  split; [exact Hsame|].
  exact (Hbody (lit "<html>hi</html>") eq_refl).
Defined.

(** C6. With the file system fixed, the outcome of a GET depends on the
    URL only through its path component: two URLs with the same path
    component, such as [/index.html?x=1#y] and [/index.html], which
    differ in query string and fragment, are answered identically. *)
Theorem path_determines_response (urlparse : pystr -> outcome ParseResult.t)
    (fs : filesystem) (url1 url2 : pystr) (parsed1 parsed2 : ParseResult.t) :
  urlparse url1 = Ok parsed1 ->
  urlparse url2 = Ok parsed2 ->
  ParseResult.path parsed1 = ParseResult.path parsed2 ->
  GET urlparse fs url1 = GET urlparse fs url2.
Proof.
  intros Hparse1 Hparse2 Hpath. unfold GET, do_GET, bind, call.
  rewrite Hparse1, Hparse2, Hpath. reflexivity.
Qed.

Lemma path_determines_response_witness :
  urlparse_lib "/index.html?x=1#y" = Ok (target "/index.html" "x=1" "y") /\
  urlparse_lib "/index.html" = Ok (target "/index.html" "" "") /\
  GET urlparse_lib app_dir "/index.html?x=1#y" =
    GET urlparse_lib app_dir "/index.html".
Proof.
  repeat (split; [reflexivity|]).
  exact (path_determines_response urlparse_lib app_dir
           "/index.html?x=1#y" "/index.html"
           (target "/index.html" "x=1" "y") (target "/index.html" "" "")
           eq_refl eq_refl eq_refl).
Defined.

Lemma GET_stylesheet urlparse fs url parsed :
  urlparse url = Ok parsed ->
  Str.endswith (ParseResult.path parsed) ".css" = true ->
  GET urlparse fs url =
  serve_file fs (Str.slice_from 1 (ParseResult.path parsed)) "text/css"
             initial.
Proof.
  intros Hparse Hcss. rewrite (GET_first_match urlparse fs url parsed Hparse).
  rewrite (first_match_applies _ Stylesheet) by exact Hcss. reflexivity.
Qed.

Lemma GET_script urlparse fs url parsed :
  urlparse url = Ok parsed ->
  Str.endswith (ParseResult.path parsed) ".js" = true ->
  GET urlparse fs url =
  serve_file fs (Str.slice_from 1 (ParseResult.path parsed))
             "application/javascript" initial.
Proof.
  intros Hparse Hjs. rewrite (GET_first_match urlparse fs url parsed Hparse).
  rewrite (first_match_applies _ Script) by exact Hjs. reflexivity.
Qed.

Lemma slice_from_1_tl (s : pystr) : Str.slice_from 1 s = tl s.
Proof. destruct s; reflexivity. Qed.

(** C9. For a path that ends in [.css] or [.js] and does not begin
    with [/], the file name handed to [serve_file], and the one file
    opened, is the path without its first character, whatever that
    character is: the path [x.css] is served from the file [.css]. *)
Theorem strip_is_by_position (urlparse : pystr -> outcome ParseResult.t)
    (fs : filesystem) (url : pystr) (parsed : ParseResult.t) :
  urlparse url = Ok parsed ->
  Str.startswith (ParseResult.path parsed) "/" = false ->
  (Str.endswith (ParseResult.path parsed) ".css" = true ->
   GET urlparse fs url =
     serve_file fs (tl (ParseResult.path parsed)) "text/css" initial /\
   opened (fst (GET urlparse fs url)) = [tl (ParseResult.path parsed)]) /\
  (Str.endswith (ParseResult.path parsed) ".js" = true ->
   GET urlparse fs url =
     serve_file fs (tl (ParseResult.path parsed)) "application/javascript"
                initial /\
   opened (fst (GET urlparse fs url)) = [tl (ParseResult.path parsed)]).
Proof.
  intros Hparse _. split; intros Hext.
  - rewrite (GET_stylesheet urlparse fs url parsed Hparse Hext),
      slice_from_1_tl.
    split; [reflexivity|]. rewrite serve_file_initial. reflexivity.
  - rewrite (GET_script urlparse fs url parsed Hparse Hext), slice_from_1_tl.
    split; [reflexivity|]. rewrite serve_file_initial. reflexivity.
Qed.

Lemma strip_is_by_position_witness :
  urlparse_lib "x.css" = Ok (target "x.css" "" "") /\
  Str.startswith "x.css" "/" = false /\
  Str.endswith "x.css" ".css" = true /\
  GET urlparse_lib app_dir "x.css" =
    serve_file app_dir ".css" "text/css" initial /\
  opened (fst (GET urlparse_lib app_dir "x.css")) = [lit ".css"].
Proof.
  split; [reflexivity|]. split; [reflexivity|]. split; [reflexivity|].
  exact (proj1 (strip_is_by_position urlparse_lib app_dir "x.css"
                  (target "x.css" "" "") eq_refl eq_refl) eq_refl).
Defined.





(** For every request path that begins with [/] and ends in [.css], the
    handler serves the file named by the path without that leading [/],
    as [text/css]; for every such path ending in [.js], the same file
    name as [application/javascript]; when the file can be read the
    response is 200 with the file's contents, encoded as UTF-8, as
    body. *)
Lemma serve_asset_by_extension (urlparse : pystr -> outcome ParseResult.t)
    (fs : filesystem) (url name : pystr) (parsed : ParseResult.t) :
  urlparse url = Ok parsed ->
  ParseResult.path parsed = Str.add "/" name ->
  strip_leading_slash (ParseResult.path parsed) = name /\
  (Str.endswith (ParseResult.path parsed) ".css" = true ->
   GET urlparse fs url = serve_file fs name "text/css" initial /\
   forall content,
     fs name = Ok content ->
     response_of (wfile (fst (GET urlparse fs url))) =
       Some {| status := 200;
               headers := [ (lit "Content-type",
                             lit "text/css; charset=utf-8");
                            (lit "Cache-Control", lit "no-cache") ];
               body := Str.encode_utf8 content |}) /\
  (Str.endswith (ParseResult.path parsed) ".js" = true ->
   GET urlparse fs url = serve_file fs name "application/javascript" initial /\
   forall content,
     fs name = Ok content ->
     response_of (wfile (fst (GET urlparse fs url))) =
       Some {| status := 200;
               headers := [ (lit "Content-type",
                             lit "application/javascript; charset=utf-8");
                            (lit "Cache-Control", lit "no-cache") ];
               body := Str.encode_utf8 content |}).
Proof.
  intros Hparse Hpath. split; [rewrite Hpath; reflexivity|].
  split; intros Hext.
  - rewrite (GET_stylesheet urlparse fs url parsed Hparse Hext), Hpath.
    change (Str.slice_from 1 (Str.add "/" name)) with name.
    split; [reflexivity|]. intros content Hread.
    rewrite serve_file_response, Hread. reflexivity.
  - rewrite (GET_script urlparse fs url parsed Hparse Hext), Hpath.
    change (Str.slice_from 1 (Str.add "/" name)) with name.
    split; [reflexivity|]. intros content Hread.
    rewrite serve_file_response, Hread. reflexivity.
Qed.

(** The style sheet and the script of the design's scenario. *)
Example serve_asset_by_extension_scenario :
  GET urlparse_lib app_dir "/style.css" =
    serve_file app_dir "style.css" "text/css" initial /\
  response_of (wfile (fst (GET urlparse_lib app_dir "/style.css"))) =
    Some (file_response "text/css" "body{}") /\
  response_of (wfile (fst (GET urlparse_lib app_dir "/app.js"))) =
    Some (file_response "application/javascript" "console.log(1)") /\
  response_of (wfile (fst (GET urlparse_lib app_dir "/missing.js"))) =
    Some not_found_response.
Proof.
  destruct (proj1 (proj2 (serve_asset_by_extension urlparse_lib app_dir
                            "/style.css" "style.css"
                            (target "/style.css" "" "") eq_refl eq_refl))
                  eq_refl)
    as [Hserve Hbody].
  split; [exact Hserve|].
  split; [exact (Hbody (lit "body{}") eq_refl)|].
  split; reflexivity.
Qed.

(** C1 at a path without a leading slash.  The path [x.css] ends in
    [.css] and has no leading [/] to strip, so the file it names is
    [x.css], which exists here with the contents [body{}]; the handler
    removes the first character all the same, opens [.css], and answers
    404 [File not found] instead of 200 with those contents. *)
Theorem first_character_dropped_without_slash :
  urlparse_lib "x.css" = Ok (target "x.css" "" "") /\
  Str.endswith "x.css" ".css" = true /\
  strip_leading_slash "x.css" = lit "x.css" /\
  directory [ (lit "x.css", lit "body{}") ] "x.css" = Ok (lit "body{}") /\
  GET urlparse_lib (directory [ (lit "x.css", lit "body{}") ]) "x.css" <>
    serve_file (directory [ (lit "x.css", lit "body{}") ])
               (strip_leading_slash "x.css") "text/css" initial /\
  opened (fst (GET urlparse_lib
                   (directory [ (lit "x.css", lit "body{}") ]) "x.css")) =
    [lit ".css"] /\
  response_of
    (wfile (fst (GET urlparse_lib
                     (directory [ (lit "x.css", lit "body{}") ]) "x.css"))) =
    Some not_found_response.
Proof.
  repeat (split; [reflexivity|]).
  split; [|split; reflexivity].
  intros H. apply (f_equal (fun x => opened (fst x))) in H.
  vm_compute in H. discriminate H.
Qed.

(** ** Start-up *)

(** C7. When the listener cannot bind port 8080, the script ends with
    a non-zero exit status and a traceback; the accept loop is never
    entered, so the failure is not turned into an HTTP response, and no
    handler of the script catches it.  When the change of directory
    succeeded, the traceback is that of the bind failure itself and
    nothing was printed. *)
Theorem bind_failure_is_fatal (env : os) (e : exn) :
  server_bind env (lit "", 8080%Z) = Failed e ->
  exists p ex,
    run_script env = (p, Some ex) /\
    exit_status ex <> 0%Z /\
    traceback ex <> None /\
    serving p = false /\
    listening p = None /\
    (chdir env "/app" = Ok tt ->
     traceback ex = Some e /\ stdout p = []).
Proof.
  intros Hbind.
  unfold run_script, main, os_chdir, TCPServer, call, modify, bind; simpl.
  destruct (chdir env "/app") as [[]|e0]; simpl.
  - rewrite Hbind; simpl. do 2 eexists; split; [reflexivity|]; simpl.
    repeat split; try reflexivity; discriminate.
  - do 2 eexists; split; [reflexivity|]; simpl.
    repeat split; try reflexivity; discriminate.
Qed.

Lemma bind_failure_is_fatal_witness :
  server_bind port_in_use (lit "", 8080%Z) =
    Failed {| exc_type := OSError;
              str := lit "[Errno 98] Address already in use" |} /\
  exists p ex,
    run_script port_in_use = (p, Some ex) /\
    exit_status ex <> 0%Z /\
    traceback ex <> None /\
    serving p = false /\
    listening p = None /\
    (chdir port_in_use "/app" = Ok tt ->
     traceback ex =
       Some {| exc_type := OSError;
               str := lit "[Errno 98] Address already in use" |} /\
     stdout p = []).
Proof.
  split; [reflexivity|].
  exact (bind_failure_is_fatal port_in_use
           {| exc_type := OSError;
              str := lit "[Errno 98] Address already in use" |} eq_refl).
Defined.

(** ** The concrete scenario of the design *)

(** The root directory holds [index.html], [style.css] and [app.js]. *)
Example scenario_requests :
  response_of (wfile (fst (GET urlparse_lib app_dir "/"))) =
    Some (file_response "text/html" "<html>hi</html>") /\
  response_of (wfile (fst (GET urlparse_lib app_dir "/style.css"))) =
    Some (file_response "text/css" "body{}") /\
  response_of (wfile (fst (GET urlparse_lib app_dir "/app.js"))) =
    Some (file_response "application/javascript" "console.log(1)") /\
  response_of (wfile (fst (GET urlparse_lib app_dir "/about"))) =
    Some (file_response "text/html" "<html>hi</html>") /\
  response_of (wfile (fst (GET urlparse_lib app_dir "/health"))) =
    Some health_response /\
  response_of (wfile (fst (GET urlparse_lib app_dir "/missing.js"))) =
    Some not_found_response.
Proof. repeat split; reflexivity. Qed.

(** A style sheet that cannot be read is answered with 500 and the
    description of the failure. *)
Example unreadable_stylesheet :
  GET urlparse_lib app_dir_unreadable "/style.css" =
    ({| wfile :=
          [ Status 500;
            Header "Content-type" "text/plain";
            EndHeaders;
            Body (bytes_lit
                    "Server error: [Errno 13] Permission denied: 'style.css'") ];
        opened := [lit "style.css"] |},
     Return tt).
Proof. reflexivity. Qed.

(** Text outside ASCII: the euro sign, e with acute accent, and a
    character beyond the basic plane. *)
Example encode_utf8_multibyte :
  Str.encode_utf8 [0x20ac; 0xe9; 0x1f600]%N =
    [xe2; x82; xac; xc3; xa9; xf0; x9f; x98; x80]%byte.
Proof. reflexivity. Qed.

(** In the deployment the script changes to [/app], binds port 8080,
    prints its two lines and stays in the accept loop. *)
Example deployed_serves :
  run_script deployed =
    ({| cwd := Some (lit "/app");
        listening := Some (lit "", 8080%Z);
        stdout :=
          [ [ Text "TweetStream frontend server running on port ";
              Int 8080 ];
            [ Text "Files in directory: ";
              StrList [lit "index.html"; lit "style.css"; lit "app.js"] ] ];
        serving := true |},
     None).
Proof. reflexivity. Qed.

(** * Further properties of the handler *)

Lemma endswith_tl (s suffix : pystr) (c : N) :
  Str.endswith s (c :: suffix) = true -> Str.endswith (tl s) suffix = true.
Proof.
  intros H. apply endswith_inv in H as [prefix ->].
  destruct prefix as [|x prefix]; simpl.
  - apply (endswith_app [] suffix).
  - replace (prefix ++ c :: suffix)%list with ((prefix ++ [c]) ++ suffix)%list
      by (rewrite <- app_assoc; reflexivity).
    apply endswith_app.
Qed.

Lemma endswith_cons (s suffix : pystr) (c : N) :
  Str.endswith s suffix = true -> Str.endswith (c :: s) suffix = true.
Proof.
  intros H. apply endswith_inv in H as [prefix ->].
  apply (endswith_app (c :: prefix) suffix).
Qed.

Lemma first_match_Stylesheet (path : pystr) :
  first_match path = Stylesheet -> Str.endswith path ".css" = true.
Proof.
  intros H. pose proof (applies_first_match path) as Ha.
  rewrite H in Ha. exact Ha.
Qed.

Lemma first_match_Script (path : pystr) :
  first_match path = Script -> Str.endswith path ".js" = true.
Proof.
  intros H. pose proof (applies_first_match path) as Ha.
  rewrite H in Ha. exact Ha.
Qed.

Lemma first_match_Health (path : pystr) :
  first_match path = Health <-> Str.eqb path "/health" = true.
Proof.
  split.
  - intros H. pose proof (applies_first_match path) as Ha.
    rewrite H in Ha. exact Ha.
  - intros H. apply first_match_applies. exact H.
Qed.

Lemma opened_serve_file fs filename content_type :
  opened (fst (serve_file fs filename content_type initial)) = [filename].
Proof. rewrite serve_file_initial. reflexivity. Qed.

(** X1. The handler reads nothing but the entry page, style sheets and
    scripts: the name of a file it opens for a request is [index.html],
    or it is the path without its first character and ends in [css] or
    in [js].  It is never the empty name. *)
Theorem opened_files_restricted (urlparse : pystr -> outcome ParseResult.t)
    (fs : filesystem) (url f : pystr) :
  In f (opened (fst (GET urlparse fs url))) ->
  f <> [] /\
  (f = lit "index.html" \/
   exists parsed,
     urlparse url = Ok parsed /\
     f = tl (ParseResult.path parsed) /\
     (Str.endswith f "css" = true \/ Str.endswith f "js" = true)).
Proof.
  destruct (urlparse url) as [parsed|e] eqn:Hparse;
    [|rewrite (GET_parse_error urlparse fs url e Hparse); intros []].
  rewrite (GET_first_match urlparse fs url parsed Hparse).
  destruct (first_match (ParseResult.path parsed)) eqn:Hrule;
    cbv beta iota delta [action]; try rewrite opened_serve_file;
    [intros []| | | |]; intros [<-|[]];
    try (split; [discriminate|left; reflexivity]).
  - apply first_match_Stylesheet in Hrule.
    rewrite slice_from_1_tl.
    apply (endswith_tl _ (lit "css") 46) in Hrule.
    split; [|right; exists parsed;
             split; [reflexivity|split; [reflexivity|left; exact Hrule]]].
    intros E; rewrite E in Hrule; discriminate Hrule.
  - apply first_match_Script in Hrule.
    rewrite slice_from_1_tl.
    apply (endswith_tl _ (lit "js") 46) in Hrule.
    split; [|right; exists parsed;
             split; [reflexivity|split; [reflexivity|right; exact Hrule]]].
    intros E; rewrite E in Hrule; discriminate Hrule.
Qed.

Lemma opened_files_restricted_witness :
  In (lit "css") (opened (fst (GET urlparse_lib app_dir ".css"))) /\
  lit "css" <> [] /\
  (lit "css" = lit "index.html" \/
   exists parsed,
     urlparse_lib ".css" = Ok parsed /\
     lit "css" = tl (ParseResult.path parsed) /\
     (Str.endswith "css" "css" = true \/ Str.endswith "css" "js" = true)).
Proof.
  split; [left; reflexivity|].
  exact (opened_files_restricted urlparse_lib app_dir ".css" "css"
           (or_introl eq_refl)).
Defined.

(** X2. A request opens no file when its URL is rejected by [urlparse]
    or its path is [/health], and exactly one file otherwise, whether
    or not the read succeeds. *)
Theorem one_read_per_request (urlparse : pystr -> outcome ParseResult.t)
    (fs : filesystem) (url : pystr) :
  List.length (opened (fst (GET urlparse fs url))) =
  match urlparse url with
  | Ok parsed =>
      if Str.eqb (ParseResult.path parsed) "/health" then 0%nat else 1%nat
  | Failed _ => 0%nat
  end.
Proof.
  destruct (urlparse url) as [parsed|e] eqn:Hparse;
    [|rewrite (GET_parse_error urlparse fs url e Hparse); reflexivity].
  rewrite (GET_first_match urlparse fs url parsed Hparse).
  destruct (Str.eqb (ParseResult.path parsed) "/health") eqn:Hh.
  - apply first_match_Health in Hh. rewrite Hh. reflexivity.
  - destruct (first_match (ParseResult.path parsed)) eqn:Hrule;
      simpl action; try (rewrite opened_serve_file; reflexivity).
    apply first_match_Health in Hrule. congruence.
Qed.

Lemma read_headers_In (w : list event) hs rest (k v : pystr) :
  read_headers w = Some (hs, rest) ->
  In (Header k v) w -> In (k, v) hs \/ In (Header k v) rest.
Proof.
  revert hs. induction w as [|ev w IH]; intros hs Hread Hin; [destruct Hin|].
  destruct ev as [code|k' v'| |data]; try discriminate Hread.
  - simpl in Hread.
    destruct (read_headers w) as [[hs' rest']|]; [|discriminate Hread].
    injection Hread as <- <-.
    destruct Hin as [Hin|Hin].
    + injection Hin as <- <-. left; left; reflexivity.
    + destruct (IH hs' eq_refl Hin) as [H|H];
        [left; right; exact H|right; exact H].
  - simpl in Hread. injection Hread as <- <-.
    destruct Hin as [Hin|Hin]; [discriminate Hin|right; exact Hin].
Qed.

Lemma response_of_headers (w : list event) (r : response) (k v : pystr) :
  response_of w = Some r -> In (Header k v) w -> In (k, v) (headers r).
Proof.
  destruct w as [|ev w]; [discriminate|].
  destruct ev as [code|k' v'| |data]; try discriminate.
  simpl. destruct (read_headers w) as [[hs rest]|] eqn:Hread; [|discriminate].
  destruct rest as [|ev rest]; [discriminate|].
  destruct ev as [code'|k' v'| |data]; try discriminate.
  destruct rest; [|discriminate].
  intros [= <-] [Hin|Hin]; [discriminate Hin|]. simpl.
  destruct (read_headers_In w hs [Body data] k v Hread Hin) as [H|[H|[]]];
    [exact H|discriminate H].
Qed.

(** X3. A request whose URL [urlparse] accepts is answered with status
    200, 404 or 500.  Beyond the [Server] and [Date] headers that
    [send_response] adds by itself, the handler sends only
    Content-type, with one of four values, and, on a served file,
    Cache-Control: it never sends a Content-Length header. *)
Theorem response_shape (urlparse : pystr -> outcome ParseResult.t)
    (fs : filesystem) (url : pystr) (parsed : ParseResult.t) :
  urlparse url = Ok parsed ->
  exists r,
    response_of (wfile (fst (GET urlparse fs url))) = Some r /\
    (status r = 200%Z \/ status r = 404%Z \/ status r = 500%Z) /\
    (forall k v, In (Header k v) (wfile (fst (GET urlparse fs url))) ->
                 k = lit "Content-type" \/ k = lit "Cache-Control") /\
    (exists v, get_header "Content-Type" (headers r) = Some v /\
               In v [ lit "text/plain";
                      lit "text/html; charset=utf-8";
                      lit "text/css; charset=utf-8";
                      lit "application/javascript; charset=utf-8" ]) /\
    get_header "Content-Length" (headers r) = None.
Proof.
  intros Hparse.
  assert (Hplain : forall k v : pystr,
             In (k, v) [ (lit "Content-type", lit "text/plain") ] ->
             k = lit "Content-type" \/ k = lit "Cache-Control").
  { intros k v [H|[]]. injection H as <- _. left; reflexivity. }
  assert (Hfile : forall ct k v : pystr,
             In (k, v) [ (lit "Content-type", ct);
                         (lit "Cache-Control", lit "no-cache") ] ->
             k = lit "Content-type" \/ k = lit "Cache-Control").
  { intros ct k v [H|[H|[]]]; injection H as <- _;
      [left|right]; reflexivity. }
  assert (Hshape : exists r,
             response_of (wfile (fst (GET urlparse fs url))) = Some r /\
             (status r = 200%Z \/ status r = 404%Z \/ status r = 500%Z) /\
             (forall k v, In (k, v) (headers r) ->
                          k = lit "Content-type" \/ k = lit "Cache-Control") /\
             (exists v, get_header "Content-Type" (headers r) = Some v /\
                        In v [ lit "text/plain";
                               lit "text/html; charset=utf-8";
                               lit "text/css; charset=utf-8";
                               lit "application/javascript; charset=utf-8" ])
             /\ get_header "Content-Length" (headers r) = None).
  { rewrite (GET_first_match urlparse fs url parsed Hparse).
    destruct (first_match (ParseResult.path parsed));
      cbv beta iota delta [action];
      try (rewrite serve_file_response;
           match goal with
           | |- context [fs ?f] => destruct (fs f) as [content|e]
           end;
           [|destruct (isinstance e FileNotFoundError)]);
      eexists; (split; [reflexivity|]);
      (split; [simpl; tauto|]);
      (split; [first [exact Hplain | apply Hfile]|]);
      (split; [|reflexivity]);
      eexists; (split; [reflexivity|]); simpl; tauto. }
  destruct Hshape as (r & Hr & Hstatus & Hkeys & Htype & Hlen).
  exists r. split; [exact Hr|]. split; [exact Hstatus|].
  split; [|split; [exact Htype|exact Hlen]].
  intros k v Hin. apply (Hkeys k v).
  apply (response_of_headers _ r k v Hr Hin).
Qed.

Lemma response_shape_witness :
  urlparse_lib "/missing.css" = Ok (target "/missing.css" "" "") /\
  exists r,
    response_of (wfile (fst (GET urlparse_lib app_dir "/missing.css"))) =
      Some r /\
    (status r = 200%Z \/ status r = 404%Z \/ status r = 500%Z) /\
    (forall k v,
       In (Header k v) (wfile (fst (GET urlparse_lib app_dir "/missing.css")))
       -> k = lit "Content-type" \/ k = lit "Cache-Control") /\
    (exists v, get_header "Content-Type" (headers r) = Some v /\
               In v [ lit "text/plain";
                      lit "text/html; charset=utf-8";
                      lit "text/css; charset=utf-8";
                      lit "application/javascript; charset=utf-8" ]) /\
    get_header "Content-Length" (headers r) = None.
Proof.
  split; [reflexivity|].
  exact (response_shape urlparse_lib app_dir "/missing.css"
           (target "/missing.css" "" "") eq_refl).
Defined.

(** X4. While [index.html] can be read, only a path that ends in
    [.css] or [.js] can get an answer other than 200: every other
    missing asset is answered with the entry page. *)
Theorem only_assets_fail (urlparse : pystr -> outcome ParseResult.t)
    (fs : filesystem) (url content : pystr) (r : response) :
  fs "index.html" = Ok content ->
  response_of (wfile (fst (GET urlparse fs url))) = Some r ->
  status r <> 200%Z ->
  exists parsed,
    urlparse url = Ok parsed /\
    (Str.endswith (ParseResult.path parsed) ".css" = true \/
     Str.endswith (ParseResult.path parsed) ".js" = true).
Proof.
  intros Hindex.
  destruct (urlparse url) as [parsed|e] eqn:Hparse;
    [|rewrite (GET_parse_error urlparse fs url e Hparse); discriminate].
  rewrite (GET_first_match urlparse fs url parsed Hparse).
  destruct (first_match (ParseResult.path parsed)) eqn:Hrule;
    cbv beta iota delta [action];
    try (rewrite serve_file_response, Hindex);
    try (intros [= <-] Hstatus; exfalso; apply Hstatus; reflexivity).
  - intros _ _. exists parsed. split; [reflexivity|].
    left. apply first_match_Stylesheet, Hrule.
  - intros _ _. exists parsed. split; [reflexivity|].
    right. apply first_match_Script, Hrule.
Qed.

Lemma only_assets_fail_witness :
  app_dir "index.html" = Ok (lit "<html>hi</html>") /\
  response_of (wfile (fst (GET urlparse_lib app_dir "/missing.js"))) =
    Some not_found_response /\
  status not_found_response <> 200%Z /\
  exists parsed,
    urlparse_lib "/missing.js" = Ok parsed /\
    (Str.endswith (ParseResult.path parsed) ".css" = true \/
     Str.endswith (ParseResult.path parsed) ".js" = true).
Proof.
  split; [reflexivity|]. split; [reflexivity|].
  assert (Hne : status not_found_response <> 200%Z) by discriminate.
  split; [exact Hne|].
  exact (only_assets_fail urlparse_lib app_dir "/missing.js"
           "<html>hi</html>" not_found_response eq_refl eq_refl Hne).
Defined.

Lemma endswith_clash (s a b : pystr) :
  Str.endswith s a = true ->
  Str.endswith s b = true ->
  exists p q, (rev a ++ p = rev b ++ q)%list.
Proof.
  intros Ha Hb.
  apply endswith_inv in Ha as [p ->]. apply endswith_inv in Hb as [q E].
  exists (rev p), (rev q). rewrite <- !rev_app_distr. f_equal. exact E.
Qed.

Lemma endswith_not (s a b : pystr) :
  Str.endswith s a = true ->
  (forall p q, (rev a ++ p)%list <> (rev b ++ q)%list) ->
  Str.endswith s b = false.
Proof.
  intros Ha Hdiff. destruct (Str.endswith s b) eqn:Hb; [|reflexivity].
  destruct (endswith_clash s a b Ha Hb) as (p & q & E).
  exfalso; exact (Hdiff p q E).
Qed.

Lemma fallback_of_suffix (path suffix : pystr) :
  Str.endswith path suffix = true ->
  Str.endswith "/health" suffix = false ->
  Str.endswith "/" suffix = false ->
  Str.endswith "/index.html" suffix = false ->
  Str.endswith path ".css" = false ->
  Str.endswith path ".js" = false ->
  first_match path = Fallback.
Proof.
  intros Hs Hh Hr Hi Hcss Hjs.
  assert (Hne : forall other, Str.endswith other suffix = false ->
                              Str.eqb path other = false).
  { intros other Ho. apply eqb_neq. intros ->. congruence. }
  apply first_match_applies. unfold applies.
  rewrite (Hne _ Hh), (Hne _ Hr), (Hne _ Hi), Hcss, Hjs. reflexivity.
Qed.

(** X5. The extension is matched with its case: a path that ends in
    [.CSS] or in [.JS] is no style sheet and no script, and is answered
    like [/], with the entry page. *)
Theorem extension_is_case_sensitive
    (urlparse : pystr -> outcome ParseResult.t) (fs : filesystem)
    (url root : pystr) (parsed parsed_root : ParseResult.t) :
  urlparse root = Ok parsed_root ->
  ParseResult.path parsed_root = lit "/" ->
  urlparse url = Ok parsed ->
  Str.endswith (ParseResult.path parsed) ".CSS" = true \/
  Str.endswith (ParseResult.path parsed) ".JS" = true ->
  GET urlparse fs url = GET urlparse fs root /\
  opened (fst (GET urlparse fs url)) = [lit "index.html"].
Proof.
  intros Hparse_root Hroot Hparse Hupper.
  assert (Hfb : first_match (ParseResult.path parsed) = Fallback).
  { destruct Hupper as [H|H];
      apply (fallback_of_suffix _ _ H); try reflexivity;
      apply (endswith_not _ _ _ H); intros p q E;
      vm_compute in E; discriminate E. }
  rewrite (GET_first_match urlparse fs url parsed Hparse).
  rewrite (GET_first_match urlparse fs root parsed_root Hparse_root).
  rewrite Hfb, Hroot.
  split; [reflexivity|]. apply opened_serve_file.
Qed.

Lemma extension_is_case_sensitive_witness :
  urlparse_lib "/" = Ok (target "/" "" "") /\
  urlparse_lib "/STYLE.CSS" = Ok (target "/STYLE.CSS" "" "") /\
  Str.endswith "/STYLE.CSS" ".CSS" = true /\
  GET urlparse_lib app_dir "/STYLE.CSS" = GET urlparse_lib app_dir "/" /\
  opened (fst (GET urlparse_lib app_dir "/STYLE.CSS")) = [lit "index.html"].
Proof.
  split; [reflexivity|]. split; [reflexivity|]. split; [reflexivity|].
  exact (extension_is_case_sensitive urlparse_lib app_dir
           "/STYLE.CSS" "/" (target "/STYLE.CSS" "" "") (target "/" "" "")
           eq_refl eq_refl eq_refl (or_introl eq_refl)).
Defined.

(** X7. The file name is taken from the path as it stands: for every
    name that ends in [.css] or [.js], whatever else it holds (a [..]
    segment, a further leading [/]), the request path [/] followed by
    that name makes the handler open exactly that name, and a file
    found there is served. *)
Theorem file_name_is_not_normalised
    (urlparse : pystr -> outcome ParseResult.t) (fs : filesystem)
    (url name : pystr) (parsed : ParseResult.t) :
  urlparse url = Ok parsed ->
  ParseResult.path parsed = Str.add "/" name ->
  Str.endswith name ".css" = true \/ Str.endswith name ".js" = true ->
  opened (fst (GET urlparse fs url)) = [name] /\
  forall content,
    fs name = Ok content ->
    exists r,
      response_of (wfile (fst (GET urlparse fs url))) = Some r /\
      status r = 200%Z /\
      body r = Str.encode_utf8 content.
Proof.
  intros Hparse Hpath [Hext|Hext];
    apply (endswith_cons _ _ 47) in Hext;
    change (47%N :: name) with (Str.add "/" name) in Hext;
    rewrite <- Hpath in Hext.
  - rewrite (GET_stylesheet urlparse fs url parsed Hparse Hext), Hpath.
    change (Str.slice_from 1 (Str.add "/" name)) with name.
    split; [apply opened_serve_file|]. intros content Hread.
    rewrite serve_file_response, Hread. eexists; repeat split.
  - rewrite (GET_script urlparse fs url parsed Hparse Hext), Hpath.
    change (Str.slice_from 1 (Str.add "/" name)) with name.
    split; [apply opened_serve_file|]. intros content Hread.
    rewrite serve_file_response, Hread. eexists; repeat split.
Qed.

Lemma file_name_is_not_normalised_witness :
  urlparse_lib "/../secret.js" = Ok (target "/../secret.js" "" "") /\
  lit "/../secret.js" = Str.add "/" "../secret.js" /\
  Str.endswith "../secret.js" ".js" = true /\
  opened (fst (GET urlparse_lib
                   (directory [ (lit "../secret.js", lit "key") ])
                   "/../secret.js")) = [lit "../secret.js"] /\
  exists r,
    response_of
      (wfile (fst (GET urlparse_lib
                       (directory [ (lit "../secret.js", lit "key") ])
                       "/../secret.js"))) = Some r /\
    status r = 200%Z /\
    body r = bytes_lit "key".
Proof.
  split; [reflexivity|]. split; [reflexivity|]. split; [reflexivity|].
  destruct (file_name_is_not_normalised urlparse_lib
              (directory [ (lit "../secret.js", lit "key") ])
              "/../secret.js" "../secret.js" (target "/../secret.js" "" "")
              eq_refl eq_refl (or_intror eq_refl))
    as [Hopened Hserved].
  split; [exact Hopened|].
  exact (Hserved (lit "key") eq_refl).
Defined.

(** * Further properties of the start-up block *)

Lemma run_script_cases (env : os) :
  run_script env =
  match chdir env "/app" with
  | Failed e => (started, Some {| exit_status := 1; traceback := Some e |})
  | Ok _ =>
      match server_bind env (lit "", 8080%Z) with
      | Failed e =>
          ({| cwd := Some (lit "/app"); listening := None; stdout := [];
              serving := false |},
           Some {| exit_status := 1; traceback := Some e |})
      | Ok _ =>
          match listdir env "." with
          | Failed e =>
              ({| cwd := Some (lit "/app"); listening := None;
                  stdout :=
                    [ [ Text "TweetStream frontend server running on port ";
                        Int 8080 ] ];
                  serving := false |},
               Some {| exit_status := 1; traceback := Some e |})
          | Ok files =>
              ({| cwd := Some (lit "/app");
                  listening := Some (lit "", 8080%Z);
                  stdout :=
                    [ [ Text "TweetStream frontend server running on port ";
                        Int 8080 ];
                      [ Text "Files in directory: "; StrList files ] ];
                  serving := true |},
               None)
          end
      end
  end.
Proof.
  unfold run_script, main, with_server, try_finally, os_chdir, TCPServer,
    os_listdir, print, serve_forever, server_close, bind, call, modify, ret;
    simpl.
  destruct (chdir env "/app") as [[]|e]; simpl; [|reflexivity].
  destruct (server_bind env (lit "", 8080%Z)) as [[]|e]; simpl; [|reflexivity].
  destruct (listdir env ".") as [files|e]; reflexivity.
Qed.

(** X9. The accept loop is entered only after the whole start-up went
    through: when the process stays running, the change to [/app], the
    bind of port 8080 on all interfaces and the directory listing all
    succeeded, in that order, and both lines were printed. *)
Theorem serving_means_started (env : os) :
  snd (run_script env) = None ->
  chdir env "/app" = Ok tt /\
  server_bind env (lit "", 8080%Z) = Ok tt /\
  exists files,
    listdir env "." = Ok files /\
    fst (run_script env) =
      {| cwd := Some (lit "/app");
         listening := Some (lit "", 8080%Z);
         stdout :=
           [ [ Text "TweetStream frontend server running on port ";
               Int 8080 ];
             [ Text "Files in directory: "; StrList files ] ];
         serving := true |}.
Proof.
  rewrite run_script_cases.
  destruct (chdir env "/app") as [[]|e]; [|discriminate].
  destruct (server_bind env (lit "", 8080%Z)) as [[]|e]; [|discriminate].
  destruct (listdir env ".") as [files|e]; [|discriminate].
  intros _. repeat split. exists files. split; reflexivity.
Qed.

Lemma serving_means_started_witness :
  snd (run_script deployed) = None /\
  chdir deployed "/app" = Ok tt /\
  server_bind deployed (lit "", 8080%Z) = Ok tt /\
  exists files,
    listdir deployed "." = Ok files /\
    fst (run_script deployed) =
      {| cwd := Some (lit "/app");
         listening := Some (lit "", 8080%Z);
         stdout :=
           [ [ Text "TweetStream frontend server running on port ";
               Int 8080 ];
             [ Text "Files in directory: "; StrList files ] ];
         serving := true |}.
Proof.
  split; [reflexivity|].
  exact (serving_means_started deployed eq_refl).
Defined.

(** X10. When the change to [/app] fails the script stops there: the
    port is not bound, nothing is printed, and the process exits with
    status 1 and the traceback of that failure. *)
Theorem chdir_failure_stops_startup (env : os) (e : exn) :
  chdir env "/app" = Failed e ->
  run_script env =
    ({| cwd := None; listening := None; stdout := []; serving := false |},
     Some {| exit_status := 1; traceback := Some e |}).
Proof.
  intros Hchdir. rewrite run_script_cases, Hchdir. reflexivity.
Qed.

Lemma chdir_failure_stops_startup_witness :
  run_script
    {| chdir := fun _ =>
         Failed {| exc_type := FileNotFoundError;
                   str := lit "[Errno 2] No such file or directory: '/app'" |};
       server_bind := fun _ => Ok tt;
       listdir := fun _ => Ok [] |} =
    ({| cwd := None; listening := None; stdout := []; serving := false |},
     Some {| exit_status := 1;
             traceback :=
               Some {| exc_type := FileNotFoundError;
                       str := lit "[Errno 2] No such file or directory: '/app'"
                    |} |}).
Proof.
  exact (chdir_failure_stops_startup
           {| chdir := fun _ =>
                Failed {| exc_type := FileNotFoundError;
                          str :=
                            lit "[Errno 2] No such file or directory: '/app'"
                       |};
              server_bind := fun _ => Ok tt;
              listdir := fun _ => Ok [] |}
           {| exc_type := FileNotFoundError;
              str := lit "[Errno 2] No such file or directory: '/app'" |}
           eq_refl).
Defined.

(** X11. When the directory cannot be listed, after the port was bound
    and the first line printed, the [with] statement closes the server
    on the way out: the process exits with status 1 and the traceback
    of that failure, no socket is left listening, and the accept loop
    was not entered. *)
Theorem listdir_failure_closes_server (env : os) (e : exn) :
  chdir env "/app" = Ok tt ->
  server_bind env (lit "", 8080%Z) = Ok tt ->
  listdir env "." = Failed e ->
  run_script env =
    ({| cwd := Some (lit "/app");
        listening := None;
        stdout :=
          [ [ Text "TweetStream frontend server running on port ";
              Int 8080 ] ];
        serving := false |},
     Some {| exit_status := 1; traceback := Some e |}).
Proof.
  intros Hchdir Hbind Hlist.
  rewrite run_script_cases, Hchdir, Hbind, Hlist. reflexivity.
Qed.

Lemma listdir_failure_closes_server_witness :
  run_script
    {| chdir := fun _ => Ok tt;
       server_bind := fun _ => Ok tt;
       listdir := fun _ =>
         Failed {| exc_type := PermissionError;
                   str := lit "[Errno 13] Permission denied: '.'" |} |} =
    ({| cwd := Some (lit "/app");
        listening := None;
        stdout :=
          [ [ Text "TweetStream frontend server running on port ";
              Int 8080 ] ];
        serving := false |},
     Some {| exit_status := 1;
             traceback :=
               Some {| exc_type := PermissionError;
                       str := lit "[Errno 13] Permission denied: '.'" |} |}).
Proof.
  exact (listdir_failure_closes_server
           {| chdir := fun _ => Ok tt;
              server_bind := fun _ => Ok tt;
              listdir := fun _ =>
                Failed {| exc_type := PermissionError;
                          str := lit "[Errno 13] Permission denied: '.'" |} |}
           {| exc_type := PermissionError;
              str := lit "[Errno 13] Permission denied: '.'" |}
           eq_refl eq_refl eq_refl).
Defined.

(** * The file system and the response *)

(** X12. A response depends on the file system only through the file
    the handler opens: two file systems that agree on that file, and
    differ anywhere else, get the same outcome for the request. *)
Theorem response_depends_on_opened_file
    (urlparse : pystr -> outcome ParseResult.t) (fs1 fs2 : filesystem)
    (url : pystr) :
  (forall f, In f (opened (fst (GET urlparse fs1 url))) -> fs1 f = fs2 f) ->
  GET urlparse fs1 url = GET urlparse fs2 url.
Proof.
  destruct (urlparse url) as [parsed|e] eqn:Hparse;
    [|rewrite !(GET_parse_error urlparse _ url e Hparse); reflexivity].
  rewrite !(GET_first_match urlparse _ url parsed Hparse).
  destruct (first_match (ParseResult.path parsed));
    cbv beta iota delta [action]; [reflexivity| | | |];
    rewrite opened_serve_file; intros Hsame;
    rewrite !serve_file_initial, (Hsame _ (or_introl eq_refl)); reflexivity.
Qed.

Lemma response_depends_on_opened_file_witness :
  app_dir "health" <> app_dir_with_health "health" /\
  GET urlparse_lib app_dir "/style.css" =
    GET urlparse_lib app_dir_with_health "/style.css".
Proof.
  split; [discriminate|].
  apply (response_depends_on_opened_file urlparse_lib app_dir
           app_dir_with_health "/style.css").
  intros f [<-|[]]. reflexivity.
Defined.
